(** * DataTableColumn: the column header of the data table

    A shallow embedding of [src/data-table/lib/data-table-column.ts].
    The column is a Lit element: its eight reactive properties are held in a
    record, the reactive-update bookkeeping of the base class
    ([changedProperties], [isUpdatePending]) is explicit state, the handlers
    are state transformers, and every [dispatchEvent] is appended to a log
    together with the property values an observer reads at that instant. *)

From Stdlib Require Import Bool List.
From stdpp Require Import base strings list gmap.

Set Default Proof Using "Type".
Set Warnings "-register-all".

(** ** Values and element references *)

(** DOM elements are referred to by identity. *)
Definition Ref := nat.

(** The JavaScript values the reactive properties of the column range over;
    [JUndefined] is the old value of a property on its first write. *)
Inductive JsValue :=
| JUndefined
| JBool (b : bool)
| JString (s : string).

#[global] Instance JsValue_eq_dec : EqDecision JsValue.
Proof. solve_decision. Defined.

(** A value that may be [undefined] or [null], as the operand of [??]. *)
Inductive Nullish (A : Type) :=
| Undefined
| Null
| Defined (a : A).
Arguments Undefined {A}.
Arguments Null {A}.
Arguments Defined {A} a.

(** [a ?? b] *)
Definition nullish_coalesce {A} (a : Nullish A) (b : A) : A :=
  match a with
  | Defined x => x
  | Undefined | Null => b
  end.

(** ** The column's properties *)

(** [type: '' | 'numeric' | 'checkbox'] *)
Inductive ColumnType := TypeDefault | TypeNumeric | TypeCheckbox.

#[global] Instance ColumnType_eq_dec : EqDecision ColumnType.
Proof. solve_decision. Defined.

Definition type_literal (t : ColumnType) : string :=
  match t with
  | TypeDefault => ""
  | TypeNumeric => "numeric"
  | TypeCheckbox => "checkbox"
  end.

Record Column := mkColumn {
  type : ColumnType;
  sortable : bool;
  sorted : bool;
  sortedDescending : bool;
  withSortButton : bool;
  filterable : bool;
  filterTextFieldLabel : string;
  filterCaseSensitive : bool
}.

(** The field initialisers of the class. *)
Definition defaults : Column :=
  {| type := TypeDefault;
     sortable := false;
     sorted := false;
     sortedDescending := false;
     withSortButton := false;
     filterable := false;
     filterTextFieldLabel := "Filter";
     filterCaseSensitive := false |}.

Inductive Property :=
| PType | PSortable | PSorted | PSortedDescending | PWithSortButton
| PFilterable | PFilterTextFieldLabel | PFilterCaseSensitive.

#[global] Instance Property_eq_dec : EqDecision Property.
Proof. solve_decision. Defined.

(** The key under which a property is recorded in [changedProperties]. *)
Definition property_key (p : Property) : string :=
  match p with
  | PType => "type"
  | PSortable => "sortable"
  | PSorted => "sorted"
  | PSortedDescending => "sortedDescending"
  | PWithSortButton => "withSortButton"
  | PFilterable => "filterable"
  | PFilterTextFieldLabel => "filterTextFieldLabel"
  | PFilterCaseSensitive => "filterCaseSensitive"
  end.

(** [this[name]] *)
Definition get_property (p : Property) (c : Column) : JsValue :=
  match p with
  | PType => JString (type_literal (type c))
  | PSortable => JBool (sortable c)
  | PSorted => JBool (sorted c)
  | PSortedDescending => JBool (sortedDescending c)
  | PWithSortButton => JBool (withSortButton c)
  | PFilterable => JBool (filterable c)
  | PFilterTextFieldLabel => JString (filterTextFieldLabel c)
  | PFilterCaseSensitive => JBool (filterCaseSensitive c)
  end.

(** A well-typed assignment [this.<property> = <value>]. *)
Inductive Assignment :=
| SetType (t : ColumnType)
| SetSortable (b : bool)
| SetSorted (b : bool)
| SetSortedDescending (b : bool)
| SetWithSortButton (b : bool)
| SetFilterable (b : bool)
| SetFilterTextFieldLabel (s : string)
| SetFilterCaseSensitive (b : bool).

Definition assigned_property (a : Assignment) : Property :=
  match a with
  | SetType _ => PType
  | SetSortable _ => PSortable
  | SetSorted _ => PSorted
  | SetSortedDescending _ => PSortedDescending
  | SetWithSortButton _ => PWithSortButton
  | SetFilterable _ => PFilterable
  | SetFilterTextFieldLabel _ => PFilterTextFieldLabel
  | SetFilterCaseSensitive _ => PFilterCaseSensitive
  end.

(** The raw store into the backing field of the property. *)
Definition store (a : Assignment) (c : Column) : Column :=
  match a with
  | SetType t =>
      mkColumn t (sortable c) (sorted c) (sortedDescending c) (withSortButton c)
               (filterable c) (filterTextFieldLabel c) (filterCaseSensitive c)
  | SetSortable b =>
      mkColumn (type c) b (sorted c) (sortedDescending c) (withSortButton c)
               (filterable c) (filterTextFieldLabel c) (filterCaseSensitive c)
  | SetSorted b =>
      mkColumn (type c) (sortable c) b (sortedDescending c) (withSortButton c)
               (filterable c) (filterTextFieldLabel c) (filterCaseSensitive c)
  | SetSortedDescending b =>
      mkColumn (type c) (sortable c) (sorted c) b (withSortButton c)
               (filterable c) (filterTextFieldLabel c) (filterCaseSensitive c)
  | SetWithSortButton b =>
      mkColumn (type c) (sortable c) (sorted c) (sortedDescending c) b
               (filterable c) (filterTextFieldLabel c) (filterCaseSensitive c)
  | SetFilterable b =>
      mkColumn (type c) (sortable c) (sorted c) (sortedDescending c)
               (withSortButton c) b (filterTextFieldLabel c)
               (filterCaseSensitive c)
  | SetFilterTextFieldLabel s =>
      mkColumn (type c) (sortable c) (sorted c) (sortedDescending c)
               (withSortButton c) (filterable c) s (filterCaseSensitive c)
  | SetFilterCaseSensitive b =>
      mkColumn (type c) (sortable c) (sorted c) (sortedDescending c)
               (withSortButton c) (filterable c) (filterTextFieldLabel c) b
  end.

(** ** Notifications *)

(** The [detail] objects: [CellCheckedEventDetail],
    [FilterTextFieldInputEventDetail], [FilterTextFieldKeyDownEventDetail]
    and [SortButtonClickedEventDetail]. *)
Inductive Detail :=
| CellChecked (checked : bool)
| FilterTextFieldInput (field : Ref) (text : string) (column : Ref)
                       (caseSensitive : bool)
| FilterTextFieldKeyDown (field : Ref) (key : string) (column : Ref)
| SortButtonClicked (column : Ref) (isDescending : bool).

(** [new CustomEvent(type, {detail})] *)
Record CustomEvent := mkCustomEvent {
  event_type : string;
  detail : Detail
}.

(** One [dispatchEvent]: the element it was dispatched on, the event, and
    the column's properties as a listener reads them during the dispatch
    (listeners run synchronously inside [dispatchEvent]). *)
Record Observation := mkObservation {
  dispatched_on : Ref;
  event : CustomEvent;
  seen : Column
}.

(** ** The element: properties plus the reactive-update state *)

Record Host := mkHost {
  self : Ref;
  props : Column;
  changedProperties : gmap string JsValue;
  isUpdatePending : bool;
  dispatched : list Observation
}.

Definition with_props (c : Column) (h : Host) : Host :=
  mkHost (self h) c (changedProperties h) (isUpdatePending h) (dispatched h).

(** Lit's default [hasChanged] ([notEqual]) on the values of this class:
    strict inequality (no property of the column is a number, so the NaN
    clause never applies). *)
Definition hasChanged (value old : JsValue) : bool :=
  bool_decide (value ≠ old).

(** [requestUpdate(name, oldValue)] of the reactive base class: a property
    whose value differs from [oldValue] is recorded in [changedProperties]
    with the value it had at the start of the batch, and an update is
    scheduled; a write of the same value is dropped. *)
Definition requestUpdate (p : Property) (old : JsValue) (h : Host) : Host :=
  if hasChanged (get_property p (props h)) old then
    mkHost (self h) (props h)
           (match changedProperties h !! property_key p with
            | Some _ => changedProperties h
            | None => <[property_key p := old]> (changedProperties h)
            end)
           true (dispatched h)
  else h.

(** The accessor generated by [@property]: read the old value, store the
    new one, request an update. *)
Definition assign (a : Assignment) (h : Host) : Host :=
  let old := get_property (assigned_property a) (props h) in
  requestUpdate (assigned_property a) old (with_props (store a (props h)) h).

(** [dispatchEvent] on element [this]. *)
Definition dispatchEvent (this : Ref) (ev : CustomEvent) (h : Host) : Host :=
  mkHost (self h) (props h) (changedProperties h) (isUpdatePending h)
         (dispatched h ++ [mkObservation this ev (props h)]).

(** ** The class body *)

(** The click listener installed by the constructor:
    [this.withSortButton = !this.withSortButton]. *)
Definition hostClickListener (h : Host) : Host :=
  assign (SetWithSortButton (negb (withSortButton (props h)))) h.

(** [updated(_changedProperties)]; [super.updated] does nothing. *)
Definition updated (_changedProperties : gmap string JsValue) (h : Host)
  : Host :=
  if bool_decide (is_Some (_changedProperties !! "sorted")) then
    assign (SetWithSortButton (sortable (props h) && sorted (props h))) h
  else h.

(** One update cycle of the base class: nothing when no update is pending;
    otherwise the batch's map is taken, the element is marked updated (fresh
    map, nothing pending) and [updated] runs on the batch's map. *)
Definition performUpdate (h : Host) : Host :=
  if isUpdatePending h then
    updated (changedProperties h)
            (mkHost (self h) (props h) ∅ false (dispatched h))
  else h.

(** The child widgets as far as the handlers read them. *)
Record Checkbox := mkCheckbox {
  checkbox_ref : Ref;
  checked : Nullish bool
}.

Record TextField := mkTextField {
  field_ref : Ref;
  value : string
}.

(** [onCheckboxClicked(e)], with [e.target] the checkbox.  [this] is an
    argument: the template binds the handler to the column, while
    [onCheckboxSlotChanged] hands the bare method to [addEventListener]. *)
Definition onCheckboxClicked (this : Ref) (checkbox : Checkbox) (h : Host)
  : Host :=
  dispatchEvent this
    (mkCustomEvent "checked"
       (CellChecked (nullish_coalesce (checked checkbox) false))) h.

(** [onFilterTextFieldInput(e)], with [e.target] the text field. *)
Definition onFilterTextFieldInput (textfield : TextField) (h : Host) : Host :=
  dispatchEvent (self h)
    (mkCustomEvent "filter"
       (FilterTextFieldInput (field_ref textfield) (value textfield) (self h)
                             (filterCaseSensitive (props h)))) h.

(** [onFilterTextFieldKeyDown(e)], with [e.target] and [e.key]. *)
Definition onFilterTextFieldKeyDown (textfield : TextField) (key : string)
    (h : Host) : Host :=
  dispatchEvent (self h)
    (mkCustomEvent "keydown"
       (FilterTextFieldKeyDown (field_ref textfield) key (self h))) h.

(** [onSortButtonClicked(e)], with [selected] the value of
    [e.detail.selected]. *)
Definition onSortButtonClicked (selected : bool) (h : Host) : Host :=
  let h1 := assign (SetSortedDescending selected) h in
  dispatchEvent (self h1)
    (mkCustomEvent "sort"
       (SortButtonClicked (self h1) (sortedDescending (props h1)))) h1.

(** ** Rendering *)

(** The functions a template binds to an event. *)
Inductive Handler :=
| HOnCheckboxSlotChanged
| HOnCheckboxClicked
| HOnFilterTextFieldInput
| HOnFilterTextFieldKeyDown
| HOnSortButtonClicked
| HStopPropagation.   (* [(e: PointerEvent) => e.stopPropagation()] *)

Inductive Attr :=
| Attribute (name val : string)                 (* [name="val"] *)
| BooleanAttribute (name : string) (on : bool)  (* [?name=${on}] *)
| Listener (event_name : string) (handler : Handler). (* [@event=${handler}] *)

Inductive Node :=
| Element (tag : string) (attrs : list Attr) (children : list Node)
| TextNode (s : string).

(** What a render method returns: the empty string or an [html] template. *)
Inductive Rendered :=
| EmptyString
| Html (nodes : list Node).

Definition renderCheckbox (c : Column) : Rendered :=
  if decide (type c = TypeCheckbox) then
    Html
      [Element "slot"
         [Attribute "name" "checkbox";
          Listener "slotchange" HOnCheckboxSlotChanged]
         [Element "md-checkbox"
            [Attribute "class" "mdc-data-table__header-row-checkbox";
             Listener "change" HOnCheckboxClicked;
             Attribute "aria-label" "Toggle all rows"]
            []]]
  else EmptyString.

Definition renderFilterTextField (c : Column) : Rendered :=
  if filterable c && bool_decide (type c ≠ TypeCheckbox) then
    Html
      [Element "div"
         [Attribute "class" "mdc-data-table__header-cell-filter-wrapper"]
         [Element "slot"
            [Attribute "class" "mdc-data-table__header-cell-label"] [];
          Element "slot"
            [Attribute "name" "filter-textfield";
             Attribute "class" "mdc-data-table__filter-textfield"]
            [Element "md-outlined-text-field"
               [Attribute "label" (filterTextFieldLabel c);
                Attribute "style"
                          "--md-outlined-field-container-height: 36px;";
                Listener "input" HOnFilterTextFieldInput;
                Listener "keydown" HOnFilterTextFieldKeyDown]
               []]]]
  else EmptyString.

Definition renderSlot (c : Column) : Rendered :=
  if sortable c then
    Html
      [Element "div"
         [Attribute "class" "mdc-data-table__header-cell-wrapper"]
         [Element "md-standard-icon-button-toggle"
            [BooleanAttribute "selected" (sortedDescending c);
             Listener "icon-button-toggle-change" HOnSortButtonClicked;
             Listener "click" HStopPropagation;
             BooleanAttribute "hidden" (negb (withSortButton c))]
            [Element "slot"
               [Attribute "name" "sort-icon-on"; Attribute "slot" "onIcon"]
               [Element "md-icon" [Attribute "slot" "onIcon"]
                        [TextNode "arrow_downward"]];
             Element "slot"
               [Attribute "name" "sort-icon-off"; Attribute "slot" "offIcon"]
               [Element "md-icon" [Attribute "slot" "offIcon"]
                        [TextNode "arrow_upward"]]];
          TextNode "&nbsp;";
          Element "slot"
            [Attribute "class" "mdc-data-table__header-cell-label"] []]]
  else Html [Element "slot" [] []].

(** [render()]: the three parts in their fixed order. *)
Definition render (c : Column) : list Rendered :=
  [renderCheckbox c; renderFilterTextField c; renderSlot c].

Definition nodes_of (r : Rendered) : list Node :=
  match r with
  | EmptyString => []
  | Html nodes => nodes
  end.

(** The nodes of the column's shadow tree. *)
Definition rendered_nodes (c : Column) : list Node :=
  concat (map nodes_of (render c)).

(** Does an element with tag [t] occur in the tree below (and at) [n]? *)
Fixpoint has_tag (t : string) (n : Node) : bool :=
  match n with
  | Element tag _ children =>
      String.eqb tag t || existsb (has_tag t) children
  | TextNode _ => false
  end.

(** The three optional controls, named by the element that realises them. *)
Inductive Affordance := CheckboxAffordance | FilterAffordance | SortAffordance.

Definition affordance_tag (a : Affordance) : string :=
  match a with
  | CheckboxAffordance => "md-checkbox"
  | FilterAffordance => "md-outlined-text-field"
  | SortAffordance => "md-standard-icon-button-toggle"
  end.

(** The top-level rendered nodes that carry affordance [a]. *)
Definition affordance_nodes (a : Affordance) (c : Column) : list Node :=
  List.filter (has_tag (affordance_tag a)) (rendered_nodes c).

Definition affordance_rendered (a : Affordance) (c : Column) : bool :=
  existsb (has_tag (affordance_tag a)) (rendered_nodes c).

(** ** Click propagation *)

(** The handlers a node registers for [click]. *)
Definition click_handlers (n : Node) : list Handler :=
  match n with
  | Element _ attrs _ =>
      omap (fun a => match a with
                     | Listener ev hd =>
                         if String.eqb ev "click" then Some hd else None
                     | _ => None
                     end) attrs
  | TextNode _ => []
  end.

(** Running a click handler on the event's stop-propagation flag.  The only
    function the templates bind to [click] is the arrow function calling
    [e.stopPropagation()]. *)
Definition on_click (hd : Handler) (stopped : bool) : bool :=
  match hd with
  | HStopPropagation => true
  | _ => stopped
  end.

(** The event paths inside the shadow tree below [n]: for every element, the
    element itself followed by its ancestors up to [n], innermost first. *)
Fixpoint event_paths (n : Node) : list (list Node) :=
  match n with
  | Element _ _ children =>
      [n] :: map (fun p => p ++ [n]) (flat_map event_paths children)
  | TextNode _ => []
  end.

(** Every path a click inside the column can take before it reaches the
    host: the empty path is a click on the host itself. *)
Definition click_paths (c : Column) : list (list Node) :=
  [] :: flat_map event_paths (rendered_nodes c).

(** Bubbling through the shadow tree: all listeners of a node run, and the
    next node is visited only while propagation has not been stopped. *)
Fixpoint bubble (path : list Node) (stopped : bool) : bool :=
  match path with
  | [] => stopped
  | n :: ancestors =>
      if stopped then true
      else bubble ancestors (fold_left (fun s hd => on_click hd s)
                                       (click_handlers n) stopped)
  end.

(** The listeners the constructor adds to the host, by event type. *)
Definition constructor_listeners : list (string * (Host → Host)) :=
  [("click", hostClickListener)].

Definition host_listeners (ev : string) : list (Host → Host) :=
  omap (fun l => if String.eqb (fst l) ev then Some (snd l) else None)
       constructor_listeners.

(** A click whose path through the shadow tree is [path]: it bubbles to the
    host, whose click listeners then run, unless propagation was stopped. *)
Definition dispatchClick (path : list Node) (h : Host) : Host :=
  if bubble path false then h
  else fold_left (fun h' l => l h') (host_listeners "click") h.

(** Does the path pass through the sort toggle? *)
Definition through_sort_toggle (path : list Node) : bool :=
  existsb (fun n => match n with
                    | Element tag _ _ =>
                        String.eqb tag (affordance_tag SortAffordance)
                    | TextNode _ => false
                    end) path.

(** ** Checkbox wiring *)

(** The listeners registered for [change] on checkboxes: the bare method
    [this.onCheckboxClicked] that [onCheckboxSlotChanged] hands to
    [addEventListener]; the listener that the template binding
    [@change=${this.onCheckboxClicked}] of [renderCheckbox] registers on the
    default [md-checkbox], a listener object of its own that calls the
    method on the column; and listeners of other parties. *)
Inductive Callback :=
| OnCheckboxClickedMethod
| TemplateChangeBinding
| ForeignCallback (id : nat).

#[global] Instance Callback_eq_dec : EqDecision Callback.
Proof. solve_decision. Defined.

(** The [change] listeners of an element in the listener store. *)
Definition change_listeners (dom : gmap Ref (list Callback)) (r : Ref)
  : list Callback :=
  default [] (dom !! r).

(** [r.addEventListener('change', cb)]: a listener already present is not
    added again. *)
Definition addEventListener (r : Ref) (cb : Callback)
    (dom : gmap Ref (list Callback)) : gmap Ref (list Callback) :=
  if bool_decide (cb ∈ change_listeners dom r) then dom
  else <[r := change_listeners dom r ++ [cb]]> dom.

(** [r.removeEventListener('change', cb)]. *)
Definition removeEventListener (r : Ref) (cb : Callback)
    (dom : gmap Ref (list Callback)) : gmap Ref (list Callback) :=
  match dom !! r with
  | Some ls => <[r := List.filter (fun l => bool_decide (l ≠ cb)) ls]> dom
  | None => dom
  end.

(** [@queryAssignedElements({slot: 'checkbox', flatten: true})]:
    the elements of [slot[name=checkbox]] in the render root.  [slot] is
    the default [md-checkbox] inside that slot, or [None] when the render
    root holds no such slot (the checkbox part was not rendered).  With
    [flatten: true] a slot that has nothing assigned yields its fallback
    content, the default checkbox.  The assigned elements are taken to be
    ordinary elements, not slots of an enclosing shadow tree. *)
Definition checkboxSlotElements (slot : option Ref) (assigned : list Ref)
  : list Ref :=
  match slot with
  | None => []
  | Some fallback =>
      match assigned with
      | [] => [fallback]
      | _ :: _ => assigned
      end
  end.

(** The getter [checkbox]: [this.checkboxSlotElements?.[0]]. *)
Definition checkbox (checkboxSlotElements : list Ref) : option Ref :=
  checkboxSlotElements !! 0.

(** [onCheckboxSlotChanged()], reading the elements now assigned to the
    checkbox slot. *)
Definition onCheckboxSlotChanged (checkboxSlotElements : list Ref)
    (dom : gmap Ref (list Callback)) : gmap Ref (list Callback) :=
  let dom1 :=
    match checkbox checkboxSlotElements with
    | Some r => removeEventListener r OnCheckboxClickedMethod dom
    | None => dom
    end in
  match checkbox checkboxSlotElements with
  | Some r => addEventListener r OnCheckboxClickedMethod dom1
  | None => dom1
  end.

(** Calling a [change] listener of element [this]: the bare method runs
    with [this] the element it was added to, the template binding calls the
    method on the column. *)
Definition invoke (cb : Callback) (this : Ref) (target : Checkbox) (h : Host)
  : Host :=
  match cb with
  | OnCheckboxClickedMethod => onCheckboxClicked this target h
  | TemplateChangeBinding => onCheckboxClicked (self h) target h
  | ForeignCallback _ => h
  end.

(** The listener store once the checkbox part is rendered: the default
    checkbox carries the template binding. *)
Definition rendered_listeners (fallback : Ref) : gmap Ref (list Callback) :=
  {[fallback := [TemplateChangeBinding]]}.

(** A [change] event of checkbox [target]: its listeners run in order. *)
Definition fireChange (target : Checkbox) (dom : gmap Ref (list Callback))
    (h : Host) : Host :=
  fold_left (fun h' cb => invoke cb (checkbox_ref target) target h')
            (change_listeners dom (checkbox_ref target)) h.

(** ** The column as a state machine *)

(** The element right after construction: the base class has requested the
    first update, and every field initialiser went through its accessor
    with old value [undefined]. *)
Definition constructed (r : Ref) : Host :=
  fold_left
    (fun h p =>
       mkHost (self h) (props h)
              (<[property_key p := JUndefined]> (changedProperties h))
              true (dispatched h))
    [PType; PSortable; PSorted; PSortedDescending; PWithSortButton;
     PFilterable; PFilterTextFieldLabel; PFilterCaseSensitive]
    (mkHost r defaults ∅ true []).

Inductive Action :=
| OwnerSets (a : Assignment)          (* a property set by the owner *)
| HeaderClick                         (* a click that reaches the host *)
| SortToggleChange (selected : bool)  (* [icon-button-toggle-change] *)
| CheckboxChange (target : Checkbox)  (* [change] of the default checkbox *)
| FilterInput (textfield : TextField)
| FilterKeyDown (textfield : TextField) (key : string)
| UpdateCycle.                        (* the scheduled update runs *)

Definition step (h : Host) (act : Action) : Host :=
  match act with
  | OwnerSets a => assign a h
  | HeaderClick => dispatchClick [] h
  | SortToggleChange selected => onSortButtonClicked selected h
  | CheckboxChange target => onCheckboxClicked (self h) target h
  | FilterInput textfield => onFilterTextFieldInput textfield h
  | FilterKeyDown textfield key => onFilterTextFieldKeyDown textfield key h
  | UpdateCycle => performUpdate h
  end.

Definition run (acts : list Action) (h : Host) : Host :=
  fold_left step acts h.

Definition reachable (h : Host) : Prop :=
  ∃ r acts, h = run acts (constructed r).

(** The invariant of the specification's data model. *)
Definition sort_button_only_if_sortable (c : Column) : Prop :=
  withSortButton c = true → sortable c = true.

(** The actions that cannot make [withSortButton] true or [sortable] false
    on their own account: everything but a header click, a write of [false]
    to [sortable] and a write of [true] to [withSortButton]. *)
Definition keeps_sort_button_invariant (act : Action) : bool :=
  match act with
  | HeaderClick => false
  | OwnerSets (SetSortable b) => b
  | OwnerSets (SetWithSortButton b) => negb b
  | _ => true
  end.

(** The writes of one batch, in order. *)
Definition assign_all (writes : list Assignment) (h : Host) : Host :=
  fold_left (fun h' a => assign a h') writes h.





(** The types of the events dispatched so far, oldest first. *)
Definition dispatched_types (h : Host) : list string :=
  map (fun o => event_type (event o)) (dispatched h).

(** The actions of the owner that involve no user or widget event. *)
Definition programmatic (act : Action) : bool :=
  match act with
  | OwnerSets _ | UpdateCycle => true
  | _ => false
  end.

(** ** Reading the rendered tree and the event log *)

(** The details of the events dispatched so far, oldest first. *)
Definition dispatched_details (h : Host) : list Detail :=
  map (fun o => detail (event o)) (dispatched h).

(** The first element with tag [t] at or below [n], in document order. *)
Fixpoint find_tag (t : string) (n : Node) : option Node :=
  match n with
  | Element tag _ children =>
      if String.eqb tag t then Some n
      else (fix first (l : list Node) : option Node :=
              match l with
              | [] => None
              | x :: l' =>
                  match find_tag t x with
                  | Some r => Some r
                  | None => first l'
                  end
              end) children
  | TextNode _ => None
  end.

(** The first element with tag [t] in the column's shadow tree. *)
Definition query (t : string) (c : Column) : option Node :=
  (fix first (l : list Node) : option Node :=
     match l with
     | [] => None
     | x :: l' =>
         match find_tag t x with
         | Some r => Some r
         | None => first l'
         end
     end) (rendered_nodes c).

(** [renderRoot.querySelector(t)] on a list of rendered nodes. *)
Definition querySelector (t : string) (nodes : list Node) : option Node :=
  (fix first (l : list Node) : option Node :=
     match l with
     | [] => None
     | x :: l' =>
         match find_tag t x with
         | Some r => Some r
         | None => first l'
         end
     end) nodes.

(** The element together with its shadow tree: [renderRoot] holds what the
    last update cycle rendered, and nothing before the first one. *)
Record Page := mkPage {
  element : Host;
  renderRoot : option (list Node)
}.

(** One update cycle with its rendering: when an update is pending, the
    templates are rendered from the properties as they are at that point
    and committed to the render root, and only then [updated] runs. *)
Definition cycle (p : Page) : Page :=
  if isUpdatePending (element p) then
    mkPage (performUpdate (element p))
           (Some (rendered_nodes (props (element p))))
  else p.

(** The [@query('md-standard-icon-button-toggle')] accessor [sortButton]:
    the first such element of the render root, if any. *)
Definition sortButton (p : Page) : option Node :=
  match renderRoot p with
  | Some nodes => querySelector "md-standard-icon-button-toggle" nodes
  | None => None
  end.

Definition attrs_of (n : Node) : list Attr :=
  match n with
  | Element _ attrs _ => attrs
  | TextNode _ => []
  end.

(** The value of the boolean attribute [name] of an element. *)
Definition boolean_attribute (name : string) (n : Node) : option bool :=
  head (omap (fun a => match a with
                       | BooleanAttribute k on =>
                           if String.eqb k name then Some on else None
                       | _ => None
                       end) (attrs_of n)).

(** The value of the string attribute [name] of an element. *)
Definition attribute (name : string) (n : Node) : option string :=
  head (omap (fun a => match a with
                       | Attribute k v =>
                           if String.eqb k name then Some v else None
                       | _ => None
                       end) (attrs_of n)).


(** The event bindings at or below [n]: element tag, event name, handler. *)
Fixpoint bindings (n : Node) : list (string * string * Handler) :=
  match n with
  | Element tag attrs children =>
      omap (fun a => match a with
                     | Listener ev hd => Some (tag, ev, hd)
                     | _ => None
                     end) attrs
      ++ flat_map bindings children
  | TextNode _ => []
  end.

(** All event bindings of the column's templates, in document order. *)
Definition rendered_bindings (c : Column) : list (string * string * Handler) :=
  flat_map bindings (rendered_nodes c).

(** A succession of [slotchange] events of the rendered checkbox slot,
    whose default checkbox is [fallback]: each event finds the elements
    then assigned to the slot and runs [onCheckboxSlotChanged]. *)
Definition slot_assignments (fallback : Ref) (contents : list (list Ref))
    (dom : gmap Ref (list Callback)) : gmap Ref (list Callback) :=
  fold_left (fun d assigned =>
               onCheckboxSlotChanged
                 (checkboxSlotElements (Some fallback) assigned) d)
            contents dom.

(** The listeners of other parties among a list of listeners. *)
Definition foreign_listeners (ls : list Callback) : list Callback :=
  List.filter (fun l => bool_decide (l ≠ OnCheckboxClickedMethod)) ls.

(** The render root of [q] shows the sort toggle as the templates render
    it from the properties [c]: present exactly when [c] is sortable, with
    [selected] and [hidden] taken from [c]. *)
Definition shows_sort_toggle (c : Column) (q : Page) : Prop :=
  (sortable c = true →
   ∃ toggle,
     sortButton q = Some toggle
     ∧ boolean_attribute "selected" toggle = Some (sortedDescending c)
     ∧ boolean_attribute "hidden" toggle = Some (negb (withSortButton c)))
  ∧ (sortable c = false → sortButton q = None).

(** Is the action a write by the owner? *)
Definition owner_write (act : Action) : bool :=
  match act with
  | OwnerSets _ => true
  | _ => false
  end.

(** * Properties *)

(** ** Basic facts about the reactive machinery *)

Section Machinery.
Implicit Types (h : Host) (a : Assignment) (p : Property).

Lemma requestUpdate_props p old h : props (requestUpdate p old h) = props h.
Proof. unfold requestUpdate. by destruct (hasChanged _ _). Qed.

Lemma requestUpdate_dispatched p old h :
  dispatched (requestUpdate p old h) = dispatched h.
Proof. unfold requestUpdate. by destruct (hasChanged _ _). Qed.

Lemma requestUpdate_self p old h : self (requestUpdate p old h) = self h.
Proof. unfold requestUpdate. by destruct (hasChanged _ _). Qed.

Lemma assign_props a h : props (assign a h) = store a (props h).
Proof. unfold assign. by rewrite requestUpdate_props. Qed.

Lemma assign_dispatched a h : dispatched (assign a h) = dispatched h.
Proof. unfold assign. by rewrite requestUpdate_dispatched. Qed.

Lemma assign_self a h : self (assign a h) = self h.
Proof. unfold assign. by rewrite requestUpdate_self. Qed.

(** A property already recorded in the batch stays recorded. *)
Lemma assign_keeps_changed a h k :
  is_Some (changedProperties h !! k) →
  is_Some (changedProperties (assign a h) !! k).
Proof.
  intros Hk. unfold assign, requestUpdate.
  destruct (hasChanged _ _); simpl; [|done].
  destruct (changedProperties h !! property_key _) eqn:E; [done|].
  destruct (decide (property_key (assigned_property a) = k)) as [->|Hne].
  - by rewrite lookup_insert_eq.
  - by rewrite lookup_insert_ne.
Qed.

(** A pending update stays pending. *)
Lemma assign_keeps_pending a h :
  isUpdatePending h = true → isUpdatePending (assign a h) = true.
Proof.
  intros Hp. unfold assign, requestUpdate.
  by destruct (hasChanged _ _).
Qed.

(** A write that changes the value records the property and schedules an
    update. *)
Lemma assign_changed a h :
  get_property (assigned_property a) (store a (props h))
    ≠ get_property (assigned_property a) (props h) →
  is_Some (changedProperties (assign a h)
             !! property_key (assigned_property a))
  ∧ isUpdatePending (assign a h) = true.
Proof.
  intros Hne. unfold assign, requestUpdate, hasChanged. simpl.
  rewrite bool_decide_eq_true_2 by done. simpl.
  destruct (changedProperties h !! property_key _) eqn:E.
  - by rewrite E.
  - by rewrite lookup_insert_eq.
Qed.

(** A write of the value the property already has changes nothing at all. *)
Lemma assign_same a h :
  store a (props h) = props h → assign a h = h.
Proof.
  intros Hs. unfold assign, requestUpdate, hasChanged. simpl. rewrite Hs.
  rewrite bool_decide_eq_false_2 by (intros Hne; by apply Hne).
  by destruct h.
Qed.

Lemma updated_dispatched m h : dispatched (updated m h) = dispatched h.
Proof.
  unfold updated. case_bool_decide; [|done]. apply assign_dispatched.
Qed.

Lemma performUpdate_dispatched h :
  dispatched (performUpdate h) = dispatched h.
Proof.
  unfold performUpdate. destruct (isUpdatePending h); [|done].
  by rewrite updated_dispatched.
Qed.

(** An update cycle whose batch contains [sorted] recomputes
    [withSortButton] from the values the properties have at that time. *)
Lemma performUpdate_sorted h :
  isUpdatePending h = true →
  is_Some (changedProperties h !! "sorted") →
  props (performUpdate h)
  = store (SetWithSortButton (sortable (props h) && sorted (props h)))
          (props h).
Proof.
  intros Hp Hs. unfold performUpdate, updated. rewrite Hp.
  rewrite bool_decide_eq_true_2 by done. by rewrite assign_props.
Qed.

(** Any other update cycle leaves the properties alone. *)
Lemma performUpdate_other h :
  changedProperties h !! "sorted" = None →
  props (performUpdate h) = props h.
Proof.
  intros Hs. unfold performUpdate, updated.
  destruct (isUpdatePending h); [|done].
  rewrite bool_decide_eq_false_2; [done|].
  rewrite Hs. by intros [? ?].
Qed.

Lemma dispatchEvent_props this ev h : props (dispatchEvent this ev h) = props h.
Proof. done. Qed.

Lemma hostClickListener_props h :
  props (hostClickListener h)
  = store (SetWithSortButton (negb (withSortButton (props h)))) (props h).
Proof. apply assign_props. Qed.

Lemma onSortButtonClicked_props selected h :
  props (onSortButtonClicked selected h)
  = store (SetSortedDescending selected) (props h).
Proof. unfold onSortButtonClicked. simpl. apply assign_props. Qed.

Lemma dispatchClick_host h : dispatchClick [] h = hostClickListener h.
Proof. done. Qed.
End Machinery.

(** ** The notifications *)




(** C7: a sort-toggle change with new pressed value [p] stores [p] in
    [sortedDescending] and then dispatches exactly one event, of type
    [sort], with detail [{column: this, isDescending: p}]; the properties an
    observer reads during that dispatch already have
    [sortedDescending = p], and the handler changes no other property. *)
Theorem sort_notification_after_update (p : bool) (h : Host) :
  let h' := onSortButtonClicked p h in
  ∃ o, dispatched h' = dispatched h ++ [o]
       ∧ dispatched_on o = self h
       ∧ event o = mkCustomEvent "sort" (SortButtonClicked (self h) p)
       ∧ sortedDescending (seen o) = p
       ∧ seen o = props h'
       ∧ props h' = store (SetSortedDescending p) (props h).
Proof.
  simpl. unfold onSortButtonClicked, dispatchEvent. simpl.
  rewrite assign_dispatched, assign_self, assign_props.
  eexists. split; [reflexivity|]. by simpl.
Qed.

Lemma step_programmatic_dispatched h act :
  programmatic act = true → dispatched (step h act) = dispatched h.
Proof.
  destruct act; simpl; try discriminate; intros _.
  - apply assign_dispatched.
  - apply performUpdate_dispatched.
Qed.

Lemma run_programmatic_dispatched acts h :
  forallb programmatic acts = true → dispatched (run acts h) = dispatched h.
Proof.
  revert h. induction acts as [|act acts IH]; intros h Hall; [done|].
  simpl in Hall. apply andb_prop in Hall as [Hact Hacts].
  change (run (act :: acts) h) with (run acts (step h act)).
  rewrite IH by done. by apply step_programmatic_dispatched.
Qed.

(** C8: programmatic property assignment dispatches nothing.  Writing any
    value to [sorted] and running the update cycle it schedules leaves the
    dispatched events as they were, and so does every sequence of owner
    writes and update cycles. *)
Theorem programmatic_assignment_is_silent (v : bool) (acts : list Action)
    (h : Host) :
  forallb programmatic acts = true →
  dispatched (assign (SetSorted v) h) = dispatched h
  ∧ dispatched (performUpdate (assign (SetSorted v) h)) = dispatched h
  ∧ dispatched (run acts h) = dispatched h.
Proof.
  intros Hall.
  rewrite performUpdate_dispatched, assign_dispatched.
  by rewrite run_programmatic_dispatched.
Qed.

Lemma programmatic_assignment_is_silent_witness :
  let h := constructed 0 in
  dispatched (assign (SetSorted true) h) = dispatched h
  ∧ dispatched (performUpdate (assign (SetSorted true) h)) = dispatched h
  ∧ dispatched (run [OwnerSets (SetSorted true); UpdateCycle;
                     OwnerSets (SetSorted false); UpdateCycle] h)
    = dispatched h.
Proof.
  apply (programmatic_assignment_is_silent true
           [OwnerSets (SetSorted true); UpdateCycle;
            OwnerSets (SetSorted false); UpdateCycle] (constructed 0)).
  reflexivity.
Defined.

(** C9: a checkbox change dispatches one [checked] event whose detail is
    [{checked: false}] when the checkbox reports [undefined] or [null], and
    the reported boolean otherwise.  The handler is a total function: there
    is no input on which it fails. *)
Theorem checked_defaults_to_false (this : Ref) (target : Checkbox)
    (h : Host) :
  dispatched (onCheckboxClicked this target h)
  = dispatched h
    ++ [mkObservation this
          (mkCustomEvent "checked"
             (CellChecked (match checked target with
                           | Defined b => b
                           | Undefined | Null => false
                           end)))
          (props h)]
  ∧ props (onCheckboxClicked this target h) = props h.
Proof.
  unfold onCheckboxClicked, dispatchEvent, nullish_coalesce. simpl.
  by destruct (checked target).
Qed.

(** C10: the header click handler negates [withSortButton] and leaves
    [type], [sortable], [sorted], [sortedDescending], [filterable],
    [filterCaseSensitive] and [filterTextFieldLabel] as they were; it
    dispatches no event. *)
Theorem header_click_frame (h : Host) :
  let h' := hostClickListener h in
  withSortButton (props h') = negb (withSortButton (props h))
  ∧ type (props h') = type (props h)
  ∧ sortable (props h') = sortable (props h)
  ∧ sorted (props h') = sorted (props h)
  ∧ sortedDescending (props h') = sortedDescending (props h)
  ∧ filterable (props h') = filterable (props h)
  ∧ filterCaseSensitive (props h') = filterCaseSensitive (props h)
  ∧ filterTextFieldLabel (props h') = filterTextFieldLabel (props h)
  ∧ dispatched h' = dispatched h.
Proof.
  simpl. rewrite hostClickListener_props.
  unfold hostClickListener. by rewrite assign_dispatched.
Qed.

(** ** The sort button and the update cycle *)

Lemma performUpdate_props_cases (h : Host) :
  props (performUpdate h) = props h
  ∨ props (performUpdate h)
    = store (SetWithSortButton (sortable (props h) && sorted (props h)))
            (props h).
Proof.
  unfold performUpdate, updated. destruct (isUpdatePending h); [|by left].
  case_bool_decide; [right|by left]. by rewrite assign_props.
Qed.

Lemma step_keeps_sort_button_invariant (h : Host) (act : Action) :
  keeps_sort_button_invariant act = true →
  sort_button_only_if_sortable (props h) →
  sort_button_only_if_sortable (props (step h act)).
Proof.
  unfold sort_button_only_if_sortable.
  destruct act as [a| | | | | |]; intros Hk Hinv; simpl in Hk;
    try discriminate; unfold step.
  - rewrite assign_props.
    destruct a; simpl in *; try done.
    by destruct b.
  - by rewrite onSortButtonClicked_props.
  - done.
  - done.
  - done.
  - destruct (performUpdate_props_cases h) as [-> | ->]; [done|].
    simpl. by intros [? _]%andb_prop.
Qed.

Lemma run_keeps_sort_button_invariant (acts : list Action) (h : Host) :
  forallb keeps_sort_button_invariant acts = true →
  sort_button_only_if_sortable (props h) →
  sort_button_only_if_sortable (props (run acts h)).
Proof.
  revert h. induction acts as [|act acts IH]; intros h Hall Hinv; [done|].
  simpl in Hall. apply andb_prop in Hall as [Hact Hacts].
  change (run (act :: acts) h) with (run acts (step h act)).
  apply IH; [done|]. by apply step_keeps_sort_button_invariant.
Qed.

(** C1, as stated, fails: the state reached from a constructed column by
    the first update cycle, one header click and the update cycle that click
    schedules has [withSortButton = true] and [sortable = false]. *)
Lemma sort_button_shown_on_unsortable_column :
  let h := run [UpdateCycle; HeaderClick; UpdateCycle] (constructed 0) in
  reachable h
  ∧ withSortButton (props h) = true
  ∧ sortable (props h) = false
  ∧ ¬ sort_button_only_if_sortable (props h).
Proof.
  split; [by exists 0, [UpdateCycle; HeaderClick; UpdateCycle]|].
  split; [by vm_compute|]. split; [by vm_compute|].
  intros Hinv. assert (Hs : sortable (props
    (run [UpdateCycle; HeaderClick; UpdateCycle] (constructed 0))) = true).
  { apply Hinv. by vm_compute. }
  vm_compute in Hs. discriminate Hs.
Qed.

(** C1, amended: [withSortButton = true] implies [sortable = true] in the
    constructed column and after every update cycle whose batch contains
    [sorted], and the implication is preserved by sort-toggle changes, by
    the checkbox and filter handlers, by update cycles and by owner writes
    other than [sortable := false] and [withSortButton := true].  A header
    click is not among the preserving actions: it negates [withSortButton]
    whatever [sortable] is. *)
Theorem sort_button_invariant_amended (r : Ref) (h h0 : Host)
    (acts : list Action) :
  isUpdatePending h = true →
  is_Some (changedProperties h !! "sorted") →
  sort_button_only_if_sortable (props h0) →
  forallb keeps_sort_button_invariant acts = true →
  sort_button_only_if_sortable (props (constructed r))
  ∧ sort_button_only_if_sortable (props (performUpdate h))
  ∧ sort_button_only_if_sortable (props (run acts h0))
  ∧ withSortButton (props (step h0 HeaderClick))
    = negb (withSortButton (props h0)).
Proof.
  intros Hp Hs Hinv Hall. repeat split.
  - by intros ?.
  - rewrite performUpdate_sorted by done.
    unfold sort_button_only_if_sortable. simpl.
    by intros [? _]%andb_prop.
  - by apply run_keeps_sort_button_invariant.
  - simpl. rewrite dispatchClick_host. by rewrite hostClickListener_props.
Qed.

Lemma sort_button_invariant_amended_witness :
  let h := assign (SetSorted true) (assign (SetSortable true) (constructed 0)) in
  let acts := [UpdateCycle; SortToggleChange true;
               OwnerSets (SetSorted false); UpdateCycle] in
  sort_button_only_if_sortable (props (constructed 0))
  ∧ sort_button_only_if_sortable (props (performUpdate h))
  ∧ sort_button_only_if_sortable (props (run acts (performUpdate h)))
  ∧ withSortButton (props (step (performUpdate h) HeaderClick))
    = negb (withSortButton (props (performUpdate h))).
Proof.
  cbv zeta.
  apply (sort_button_invariant_amended 0
           (assign (SetSorted true)
                   (assign (SetSortable true) (constructed 0)))
           (performUpdate (assign (SetSorted true)
                   (assign (SetSortable true) (constructed 0))))
           [UpdateCycle; SortToggleChange true;
            OwnerSets (SetSorted false); UpdateCycle]).
  - by vm_compute.
  - vm_compute. eauto.
  - vm_compute. auto.
  - by vm_compute.
Defined.

Lemma assign_all_keeps (writes : list Assignment) (h : Host) (k : string) :
  isUpdatePending h = true →
  is_Some (changedProperties h !! k) →
  isUpdatePending (assign_all writes h) = true
  ∧ is_Some (changedProperties (assign_all writes h) !! k).
Proof.
  revert h. induction writes as [|a writes IH]; intros h Hp Hk; [done|].
  change (assign_all (a :: writes) h) with (assign_all writes (assign a h)).
  apply IH; [by apply assign_keeps_pending | by apply assign_keeps_changed].
Qed.

(** C2, as stated, fails for a write of the value [sorted] already has:
    after a header click has shown the sort button of an unsortable,
    unsorted column, writing [false] to [sorted] again (in a batch that
    also changes [filterable], so that an update cycle does run) leaves
    [sorted] out of the batch's map, and the cycle ends with
    [withSortButton = true], which is not [sortable AND sorted]. *)
Lemma same_value_write_skips_recompute :
  let h0 := run [UpdateCycle; HeaderClick; UpdateCycle] (constructed 0) in
  let batch := assign (SetFilterable true) (assign (SetSorted false) h0) in
  let h := performUpdate batch in
  sorted (props h0) = false
  ∧ isUpdatePending batch = true
  ∧ changedProperties batch !! "sorted" = None
  ∧ withSortButton (props h) = true
  ∧ sortable (props h) && sorted (props h) = false
  ∧ withSortButton (props h) ≠ (sortable (props h) && sorted (props h)).
Proof. repeat split; by vm_compute. Qed.

(** C2, amended: for every [sortable] and [sorted], after the owner writes
    to [sorted] a value different from the one it has, the update cycle of
    that batch ends with [withSortButton = (sortable AND sorted)], evaluated
    once on the values the properties have after all writes of the batch.
    A write of the value [sorted] already has does not enter the batch: with
    no earlier change of [sorted] pending, it and the following update cycle
    leave every property, [withSortButton] included, as it was. *)
Theorem sorted_write_recomputes_sort_button (v : bool)
    (later : list Assignment) (h : Host) :
  (v ≠ sorted (props h) →
   let batch := assign_all later (assign (SetSorted v) h) in
   props (performUpdate batch)
   = store (SetWithSortButton (sortable (props batch) && sorted (props batch)))
           (props batch)
   ∧ withSortButton (props (performUpdate batch))
     = sortable (props (performUpdate batch))
       && sorted (props (performUpdate batch)))
  ∧ (v = sorted (props h) →
     changedProperties h !! "sorted" = None →
     props (performUpdate (assign (SetSorted v) h)) = props h).
Proof.
  split.
  - intros Hne batch.
    destruct (assign_changed (SetSorted v) h) as [Hk Hp].
    { simpl. congruence. }
    destruct (assign_all_keeps later (assign (SetSorted v) h) "sorted")
      as [Hp' Hk']; [done..|].
    fold batch in Hp', Hk'.
    rewrite (performUpdate_sorted batch) by done. done.
  - intros -> Hnone. rewrite assign_same by (by destruct (props h)).
    by apply performUpdate_other.
Qed.

Lemma sorted_write_recomputes_sort_button_witness :
  let h := assign (SetSortable true) (performUpdate (constructed 0)) in
  let batch := assign_all [SetFilterable true] (assign (SetSorted true) h) in
  withSortButton (props (performUpdate batch)) = true
  ∧ props (performUpdate (assign (SetSorted false)
                                 (performUpdate (constructed 0))))
    = props (performUpdate (constructed 0)).
Proof.
  split.
  - destruct (sorted_write_recomputes_sort_button true [SetFilterable true]
                (assign (SetSortable true) (performUpdate (constructed 0))))
      as [H _].
    destruct H as [_ H]; [by vm_compute|]. rewrite H. by vm_compute.
  - destruct (sorted_write_recomputes_sort_button false []
                (performUpdate (constructed 0))) as [_ H].
    apply H; by vm_compute.
Defined.

(** ** The render selector *)

(** C4: for every [type], [sortable] and [filterable], the rendered tree
    contains the checkbox iff [type] is [checkbox], the filter text field
    iff [filterable] and [type] is not [checkbox], and the sort toggle iff
    [sortable].  An omitted checkbox or filter part is the empty string; with
    [sortable] false the third part is the bare default slot, and no
    rendered node carries an omitted affordance. *)
Theorem render_selector (c : Column) (a : Affordance) :
  (affordance_rendered CheckboxAffordance c = true ↔ type c = TypeCheckbox)
  ∧ (affordance_rendered FilterAffordance c = true
     ↔ filterable c = true ∧ type c ≠ TypeCheckbox)
  ∧ (affordance_rendered SortAffordance c = true ↔ sortable c = true)
  ∧ (type c ≠ TypeCheckbox → renderCheckbox c = EmptyString)
  ∧ (¬ (filterable c = true ∧ type c ≠ TypeCheckbox) →
     renderFilterTextField c = EmptyString)
  ∧ (sortable c = false → renderSlot c = Html [Element "slot" [] []])
  ∧ (affordance_rendered a c = false → affordance_nodes a c = []).
Proof.
  destruct c as [t so s sd w f l fc].
  destruct t, so, f, a; vm_compute; intuition congruence.
Qed.

Lemma render_selector_witness :
  renderCheckbox defaults = EmptyString
  ∧ renderFilterTextField defaults = EmptyString
  ∧ renderSlot defaults = Html [Element "slot" [] []]
  ∧ affordance_nodes SortAffordance defaults = [].
Proof.
  destruct (render_selector defaults SortAffordance)
    as (_ & _ & _ & Hc & Hf & Hs & Hn).
  split; [apply Hc; discriminate|].
  split; [apply Hf; intros [? _]; discriminate|].
  split; [apply Hs; reflexivity|].
  apply Hn; reflexivity.
Defined.

(** ** Clicks *)

(** C5: the constructor installs one click listener on the host.  A click
    on the header itself, or on any rendered element outside the sort
    toggle, reaches the host and runs that listener once, so
    [withSortButton] becomes its negation; a click on the sort toggle or
    inside it is stopped at the toggle and leaves the column as it was. *)
Theorem header_click_toggles_once (h : Host) (path : list Node) :
  In path (click_paths (props h)) →
  host_listeners "click" = [hostClickListener]
  ∧ In [] (click_paths (props h))
  ∧ withSortButton (props (dispatchClick [] h))
    = negb (withSortButton (props h))
  ∧ dispatchClick path h
    = (if through_sort_toggle path then h else hostClickListener h).
Proof.
  intros Hin. split; [reflexivity|]. split; [by left|].
  split; [by rewrite dispatchClick_host, hostClickListener_props|].
  destruct h as [r c m p d]. destruct c as [t so s sd w f l fc].
  simpl props in Hin.
  destruct t, so, f; cbv in Hin;
    repeat (destruct Hin as [<- | Hin]; [reflexivity|]);
    destruct Hin.
Qed.

Lemma header_click_toggles_once_witness :
  let h := assign (SetSortable true) (constructed 0) in
  let toggle := nth 2 (click_paths (props h)) [] in
  through_sort_toggle toggle = true
  ∧ dispatchClick toggle h = h
  ∧ withSortButton (props (dispatchClick [] h)) = true.
Proof.
  cbv zeta. split; [by vm_compute|].
  destruct (header_click_toggles_once
              (assign (SetSortable true) (constructed 0))
              (nth 2 (click_paths
                        (props (assign (SetSortable true) (constructed 0))))
                   []))
    as (_ & _ & Hhost & Htoggle).
  - vm_compute. right. right. left. reflexivity.
  - split; [|by rewrite Hhost]. rewrite Htoggle. reflexivity.
Defined.

(** ** Checkbox wiring *)

Lemma change_listeners_insert (dom : gmap Ref (list Callback)) (r r' : Ref)
    (ls : list Callback) :
  change_listeners (<[r := ls]> dom) r'
  = if decide (r = r') then ls else change_listeners dom r'.
Proof.
  unfold change_listeners. rewrite lookup_insert.
  by destruct (decide (r = r')).
Qed.

Lemma removeEventListener_listeners (dom : gmap Ref (list Callback))
    (r r' : Ref) (cb : Callback) :
  change_listeners (removeEventListener r cb dom) r'
  = if decide (r = r') then
      List.filter (fun l => bool_decide (l ≠ cb)) (change_listeners dom r')
    else change_listeners dom r'.
Proof.
  unfold removeEventListener.
  destruct (dom !! r) as [ls|] eqn:E.
  - rewrite change_listeners_insert.
    destruct (decide (r = r')) as [<-|]; [|done].
    unfold change_listeners. by rewrite E.
  - destruct (decide (r = r')) as [<-|]; [|done].
    unfold change_listeners. by rewrite E.
Qed.

Lemma addEventListener_listeners (dom : gmap Ref (list Callback))
    (r r' : Ref) (cb : Callback) :
  change_listeners (addEventListener r cb dom) r'
  = if decide (r = r') then
      if bool_decide (cb ∈ change_listeners dom r') then
        change_listeners dom r'
      else change_listeners dom r' ++ [cb]
    else change_listeners dom r'.
Proof.
  unfold addEventListener.
  destruct (decide (r = r')) as [<-|Hne].
  - case_bool_decide; [done|].
    rewrite change_listeners_insert. by rewrite decide_True.
  - case_bool_decide; [done|].
    rewrite change_listeners_insert. by rewrite decide_False.
Qed.

Lemma count_occ_filter_out (ls : list Callback) (cb : Callback) :
  count_occ Callback_eq_dec
            (List.filter (fun l => bool_decide (l ≠ cb)) ls) cb = 0.
Proof.
  apply count_occ_not_In. rewrite filter_In. intros [_ Hcb].
  apply bool_decide_eq_true_1 in Hcb. by apply Hcb.
Qed.

(** After [onCheckboxSlotChanged] the first element of the slot carries the
    method exactly once, and every other element keeps its listeners. *)
Lemma onCheckboxSlotChanged_listeners (els : list Ref)
    (dom : gmap Ref (list Callback)) (r : Ref) :
  checkbox els = Some r →
  count_occ Callback_eq_dec
            (change_listeners (onCheckboxSlotChanged els dom) r)
            OnCheckboxClickedMethod = 1
  ∧ ∀ r', r' ≠ r →
          change_listeners (onCheckboxSlotChanged els dom) r'
          = change_listeners dom r'.
Proof.
  intros Hr. unfold onCheckboxSlotChanged. rewrite Hr. split.
  - rewrite addEventListener_listeners, decide_True by done.
    rewrite removeEventListener_listeners, decide_True by done.
    rewrite bool_decide_eq_false_2.
    + rewrite count_occ_app, count_occ_filter_out. reflexivity.
    + rewrite list_elem_of_In. rewrite filter_In. intros [_ Hcb].
      apply bool_decide_eq_true_1 in Hcb. by apply Hcb.
  - intros r' Hne.
    rewrite addEventListener_listeners, decide_False by done.
    by rewrite removeEventListener_listeners, decide_False.
Qed.

(** The listeners of an element after [onCheckboxSlotChanged]: on the
    effective checkbox the column's method is taken out and put at the
    end, the other listeners keep their places; every other element keeps
    its listeners. *)
Lemma onCheckboxSlotChanged_change_listeners (els : list Ref)
    (dom : gmap Ref (list Callback)) (r : Ref) :
  change_listeners (onCheckboxSlotChanged els dom) r
  = if decide (checkbox els = Some r) then
      List.filter (fun l => bool_decide (l ≠ OnCheckboxClickedMethod))
                  (change_listeners dom r)
      ++ [OnCheckboxClickedMethod]
    else change_listeners dom r.
Proof.
  unfold onCheckboxSlotChanged.
  destruct (checkbox els) as [r0|] eqn:Hr.
  - rewrite addEventListener_listeners, !removeEventListener_listeners.
    destruct (decide (r0 = r)) as [->|Hne].
    + rewrite decide_True by done.
      rewrite bool_decide_eq_false_2; [done|].
      rewrite list_elem_of_In, filter_In. intros [_ Hcb].
      apply bool_decide_eq_true_1 in Hcb. by apply Hcb.
    + rewrite decide_False; [done|]. congruence.
  - by rewrite decide_False.
Qed.

(** Running the listeners of a checkbox that does not carry the template
    binding dispatches one [checked] event, on the checkbox, per occurrence
    of the method and changes nothing else. *)
Lemma fold_invoke (ls : list Callback) (target : Checkbox) (h : Host) :
  TemplateChangeBinding ∉ ls →
  fold_left (fun h' cb => invoke cb (checkbox_ref target) target h') ls h
  = mkHost (self h) (props h) (changedProperties h) (isUpdatePending h)
      (dispatched h
       ++ repeat (mkObservation (checkbox_ref target)
                    (mkCustomEvent "checked"
                       (CellChecked (nullish_coalesce (checked target) false)))
                    (props h))
                 (count_occ Callback_eq_dec ls OnCheckboxClickedMethod)).
Proof.
  revert h. induction ls as [|cb ls IH]; intros h Hno.
  - simpl. rewrite app_nil_r. by destruct h.
  - apply not_elem_of_cons in Hno as [Hcb Hls].
    simpl fold_left. rewrite IH by done. destruct cb as [| |id]; simpl.
    + by rewrite <- app_assoc.
    + done.
    + done.
Qed.

(** C6, as stated, fails twice.  When the slot content changes from
    checkbox 1 to checkbox 2, the method stays attached to checkbox 1, the
    checkbox that was effective before, and a change of that old element
    still runs it.  And when the slot is emptied afterwards, the default
    checkbox 9 of the template becomes the effective one and gets the bare
    method next to its template binding, so one change of it runs
    [onCheckboxClicked] twice: on the column and on the checkbox. *)
Lemma prior_checkbox_keeps_listener :
  let dom1 :=
    onCheckboxSlotChanged (checkboxSlotElements (Some 9) [1])
                          (rendered_listeners 9) in
  let dom2 := onCheckboxSlotChanged (checkboxSlotElements (Some 9) [2]) dom1 in
  let dom3 := onCheckboxSlotChanged (checkboxSlotElements (Some 9) []) dom2 in
  checkbox (checkboxSlotElements (Some 9) [1]) = Some 1
  ∧ checkbox (checkboxSlotElements (Some 9) [2]) = Some 2
  ∧ change_listeners dom2 1 = [OnCheckboxClickedMethod]
  ∧ ¬ (OnCheckboxClickedMethod ∉ change_listeners dom2 1)
  ∧ dispatched_types
      (fireChange (mkCheckbox 1 (Defined true)) dom2 (constructed 0))
    = ["checked"]
  ∧ checkbox (checkboxSlotElements (Some 9) []) = Some 9
  ∧ change_listeners dom3 9
    = [TemplateChangeBinding; OnCheckboxClickedMethod]
  ∧ map dispatched_on
        (dispatched
           (fireChange (mkCheckbox 9 (Defined true)) dom3 (constructed 0)))
    = [0; 9].
Proof.
  cbv zeta. split; [done|]. split; [done|].
  assert (Hl : change_listeners
                 (onCheckboxSlotChanged (checkboxSlotElements (Some 9) [2])
                    (onCheckboxSlotChanged (checkboxSlotElements (Some 9) [1])
                       (rendered_listeners 9))) 1
               = [OnCheckboxClickedMethod]) by (by vm_compute).
  split; [done|]. split.
  { rewrite Hl. intros Hn. apply Hn. by left. }
  split.
  { unfold fireChange. simpl checkbox_ref. rewrite Hl. by vm_compute. }
  split; [done|]. split; by vm_compute.
Qed.

(** C6, amended: on every slot-content change the method is removed from
    and then added to the checkbox that is effective now: the first
    element assigned to the checkbox slot or, when nothing is assigned, the
    default checkbox of the template; nothing is done only when the render
    root holds no checkbox slot.  So the effective checkbox carries the
    method exactly once, behind its other listeners, which keep their
    places; the listeners of every other element, a previously effective
    checkbox included, are left as they were; and a change of an effective
    checkbox that does not carry the template binding (one assigned to the
    slot) runs the method exactly once: one [checked] event, dispatched on
    the checkbox. *)
Theorem checkbox_wiring (fallback : Ref) (assigned : list Ref)
    (dom : gmap Ref (list Callback)) (target : Checkbox) (h : Host) :
  let els := checkboxSlotElements (Some fallback) assigned in
  let dom' := onCheckboxSlotChanged els dom in
  checkbox els = Some (match assigned with [] => fallback | r :: _ => r end)
  ∧ onCheckboxSlotChanged (checkboxSlotElements None assigned) dom = dom
  ∧ (checkbox els = Some (checkbox_ref target) →
     count_occ Callback_eq_dec (change_listeners dom' (checkbox_ref target))
               OnCheckboxClickedMethod = 1
     ∧ change_listeners dom' (checkbox_ref target)
       = List.filter (fun l => bool_decide (l ≠ OnCheckboxClickedMethod))
                     (change_listeners dom (checkbox_ref target))
         ++ [OnCheckboxClickedMethod]
     ∧ (∀ r', r' ≠ checkbox_ref target →
              change_listeners dom' r' = change_listeners dom r')
     ∧ (TemplateChangeBinding ∉ change_listeners dom (checkbox_ref target) →
        dispatched (fireChange target dom' h)
        = dispatched h
          ++ [mkObservation (checkbox_ref target)
                (mkCustomEvent "checked"
                   (CellChecked (nullish_coalesce (checked target) false)))
                (props h)])).
Proof.
  cbv zeta. split; [by destruct assigned|]. split; [done|].
  generalize (checkboxSlotElements (Some fallback) assigned) as els.
  intros els Hr.
  destruct (onCheckboxSlotChanged_listeners _ dom _ Hr) as [Hc Ho].
  pose proof (onCheckboxSlotChanged_change_listeners els dom
                (checkbox_ref target)) as Hl.
  rewrite decide_True in Hl by done.
  split; [done|]. split; [done|]. split; [done|].
  intros Hno. unfold fireChange. rewrite fold_invoke.
  - cbn [dispatched]. by rewrite Hc.
  - rewrite Hl. rewrite not_elem_of_app. split.
    + rewrite list_elem_of_In, filter_In. intros [Hin _].
      apply Hno. by rewrite list_elem_of_In.
    + by intros ?%list_elem_of_singleton.
Qed.

Lemma checkbox_wiring_witness :
  let dom := <[1 := [ForeignCallback 7; OnCheckboxClickedMethod]]>
               (rendered_listeners 9) in
  let dom' := onCheckboxSlotChanged (checkboxSlotElements (Some 9) [2; 3]) dom in
  count_occ Callback_eq_dec (change_listeners dom' 2)
            OnCheckboxClickedMethod = 1
  ∧ (∀ r', r' ≠ 2 → change_listeners dom' r' = change_listeners dom r')
  ∧ dispatched (fireChange (mkCheckbox 2 Undefined) dom' (constructed 0))
    = dispatched (constructed 0)
      ++ [mkObservation 2 (mkCustomEvent "checked" (CellChecked false))
            (props (constructed 0))].
Proof.
  cbv zeta.
  destruct (checkbox_wiring 9 [2; 3]
              (<[1 := [ForeignCallback 7; OnCheckboxClickedMethod]]>
                 (rendered_listeners 9))
              (mkCheckbox 2 Undefined) (constructed 0))
    as (_ & _ & H).
  destruct H as (Hc & _ & Ho & Hd); [reflexivity|].
  split; [exact Hc|]. split; [exact Ho|].
  apply Hd. vm_compute. by intros ?%elem_of_nil.
Defined.

(** ** Further properties of the handlers *)





Lemma onFilterTextFieldInput_details (tf : TextField) (h : Host) :
  dispatched_details (onFilterTextFieldInput tf h)
  = dispatched_details h
    ++ [FilterTextFieldInput (field_ref tf) (value tf) (self h)
          (filterCaseSensitive (props h))].
Proof.
  unfold dispatched_details, onFilterTextFieldInput, dispatchEvent. simpl.
  by rewrite map_app.
Qed.

Lemma onFilterTextFieldInput_self (tf : TextField) (h : Host) :
  self (onFilterTextFieldInput tf h) = self h.
Proof. done. Qed.

(** X2: the payload of a [filter] event carries [filterCaseSensitive] as it
    is when the event is dispatched, also when the owner wrote it just
    before and no update cycle has run: typing with the flag set to [b1],
    then setting it to [b2] and typing again, dispatches two events with
    [caseSensitive] [b1] and then [b2], each with the field, its text and
    the column itself. *)
Theorem filter_event_reads_current_case_sensitivity (b1 b2 : bool)
    (tf1 tf2 : TextField) (h : Host) :
  dispatched_details
    (run [OwnerSets (SetFilterCaseSensitive b1); FilterInput tf1;
          OwnerSets (SetFilterCaseSensitive b2); FilterInput tf2] h)
  = dispatched_details h
    ++ [FilterTextFieldInput (field_ref tf1) (value tf1) (self h) b1;
        FilterTextFieldInput (field_ref tf2) (value tf2) (self h) b2].
Proof.
  change (run _ h)
    with (onFilterTextFieldInput tf2
            (assign (SetFilterCaseSensitive b2)
               (onFilterTextFieldInput tf1
                  (assign (SetFilterCaseSensitive b1) h)))).
  rewrite onFilterTextFieldInput_details, assign_props, assign_self.
  rewrite onFilterTextFieldInput_self.
  unfold dispatched_details at 1. rewrite assign_dispatched.
  fold (dispatched_details
          (onFilterTextFieldInput tf1 (assign (SetFilterCaseSensitive b1) h))).
  rewrite onFilterTextFieldInput_details, assign_props, assign_self.
  unfold dispatched_details at 1. rewrite assign_dispatched.
  fold (dispatched_details h). by rewrite <- app_assoc.
Qed.

(** The properties only the owner writes. *)
Lemma step_owner_properties (h : Host) (act : Action) :
  owner_write act = false →
  type (props (step h act)) = type (props h)
  ∧ sortable (props (step h act)) = sortable (props h)
  ∧ sorted (props (step h act)) = sorted (props h)
  ∧ filterable (props (step h act)) = filterable (props h)
  ∧ filterTextFieldLabel (props (step h act))
    = filterTextFieldLabel (props h)
  ∧ filterCaseSensitive (props (step h act)) = filterCaseSensitive (props h).
Proof.
  destruct act; intros Ho; simpl in Ho; try discriminate; unfold step.
  - by rewrite dispatchClick_host, hostClickListener_props.
  - by rewrite onSortButtonClicked_props.
  - done.
  - done.
  - done.
  - by destruct (performUpdate_props_cases h) as [-> | ->].
Qed.

(** X3: the column never writes [type], [sortable], [sorted],
    [filterable], [filterTextFieldLabel] or [filterCaseSensitive] itself:
    along any sequence of header clicks, widget events and update cycles
    (no owner write) these six properties keep their values. *)
Theorem capabilities_are_owner_written (acts : list Action) (h : Host) :
  forallb (fun act => negb (owner_write act)) acts = true →
  type (props (run acts h)) = type (props h)
  ∧ sortable (props (run acts h)) = sortable (props h)
  ∧ sorted (props (run acts h)) = sorted (props h)
  ∧ filterable (props (run acts h)) = filterable (props h)
  ∧ filterTextFieldLabel (props (run acts h))
    = filterTextFieldLabel (props h)
  ∧ filterCaseSensitive (props (run acts h)) = filterCaseSensitive (props h).
Proof.
  revert h. induction acts as [|act acts IH]; intros h Hall; [done|].
  simpl in Hall. apply andb_prop in Hall as [Hact Hacts].
  apply negb_true_iff in Hact.
  change (run (act :: acts) h) with (run acts (step h act)).
  destruct (IH (step h act) Hacts) as (-> & -> & -> & -> & -> & ->).
  by apply step_owner_properties.
Qed.

Lemma capabilities_are_owner_written_witness :
  let h := assign (SetSorted true) (assign (SetSortable true) (constructed 0)) in
  let acts := [UpdateCycle; HeaderClick; SortToggleChange true; UpdateCycle] in
  sortable (props (run acts h)) = true ∧ sorted (props (run acts h)) = true.
Proof.
  cbv zeta.
  destruct (capabilities_are_owner_written
              [UpdateCycle; HeaderClick; SortToggleChange true; UpdateCycle]
              (assign (SetSorted true)
                      (assign (SetSortable true) (constructed 0))))
    as (_ & Hs & Hd & _); [reflexivity|].
  rewrite Hs, Hd. split; by vm_compute.
Defined.

(** X4: a sort-toggle change whose pressed value equals the current
    [sortedDescending] still dispatches its [sort] event, but it changes no
    property and schedules no update. *)
Theorem unchanged_toggle_still_notifies (h : Host) :
  onSortButtonClicked (sortedDescending (props h)) h
  = mkHost (self h) (props h) (changedProperties h) (isUpdatePending h)
      (dispatched h
       ++ [mkObservation (self h)
             (mkCustomEvent "sort"
                (SortButtonClicked (self h) (sortedDescending (props h))))
             (props h)]).
Proof.
  unfold onSortButtonClicked.
  rewrite assign_same by (by destruct (props h)). reflexivity.
Qed.

(** X5: [n] header clicks in a row leave every property but
    [withSortButton] alone; [withSortButton] is back at its value after an
    even number of clicks and negated after an odd number. *)
Theorem header_clicks_parity (n : nat) (h : Host) :
  props (Nat.iter n (dispatchClick []) h)
  = if Nat.even n then props h
    else store (SetWithSortButton (negb (withSortButton (props h)))) (props h).
Proof.
  induction n as [n IH] using (well_founded_induction lt_wf).
  destruct n as [|[|n]].
  - reflexivity.
  - simpl. by rewrite dispatchClick_host, hostClickListener_props.
  - change (Nat.iter (S (S n)) (dispatchClick []) h)
      with (dispatchClick [] (dispatchClick [] (Nat.iter n (dispatchClick []) h))).
    rewrite !dispatchClick_host, !hostClickListener_props.
    rewrite IH by lia. change (Nat.even (S (S n))) with (Nat.even n).
    destruct (Nat.even n); destruct (props h) as [? ? ? ? w ? ? ?];
      simpl; by destruct w.
Qed.

(** X6: a header click that falls into the same batch as a change of
    [sorted] is overridden: whether the click comes after or before the
    write, the update cycle ends with
    [withSortButton = (sortable AND sorted)]. *)
Theorem click_in_sorted_batch_is_overridden (v : bool) (h : Host) :
  v ≠ sorted (props h) →
  withSortButton
    (props (performUpdate (hostClickListener (assign (SetSorted v) h))))
  = sortable (props h) && v
  ∧ withSortButton
      (props (performUpdate (assign (SetSorted v) (hostClickListener h))))
    = sortable (props h) && v.
Proof.
  intros Hne. split.
  - destruct (assign_changed (SetSorted v) h) as [Hk Hp];
      [simpl; congruence|].
    rewrite performUpdate_sorted.
    + by rewrite hostClickListener_props, assign_props.
    + by apply assign_keeps_pending.
    + by apply assign_keeps_changed.
  - destruct (assign_changed (SetSorted v) (hostClickListener h))
      as [Hk Hp].
    { rewrite hostClickListener_props. simpl. congruence. }
    rewrite performUpdate_sorted by done.
    by rewrite assign_props, hostClickListener_props.
Qed.

Lemma click_in_sorted_batch_is_overridden_witness :
  let h := assign (SetSortable true) (constructed 0) in
  withSortButton
    (props (performUpdate (hostClickListener (assign (SetSorted true) h))))
  = true
  ∧ withSortButton
      (props (performUpdate (assign (SetSorted true) (hostClickListener h))))
    = true.
Proof.
  cbv zeta.
  apply (click_in_sorted_batch_is_overridden true
           (assign (SetSortable true) (constructed 0))).
  by vm_compute.
Defined.

(** X7: update cycles settle.  [updated] writes [withSortButton] inside the
    cycle, which may schedule one more cycle, but that one finds no
    [sorted] in its batch: after two cycles nothing is pending, a further
    cycle does nothing, and the properties are those the first cycle left. *)
Theorem update_cycles_settle (h : Host) :
  let h2 := performUpdate (performUpdate h) in
  isUpdatePending h2 = false
  ∧ performUpdate h2 = h2
  ∧ props h2 = props (performUpdate h)
  ∧ (isUpdatePending h = true → changedProperties h2 = ∅).
Proof.
  assert (Hquiet : ∀ k, isUpdatePending k = false → performUpdate k = k).
  { intros k Hk. unfold performUpdate. by rewrite Hk. }
  assert (Hone : ∀ k, changedProperties k !! "sorted" = None →
                      isUpdatePending (performUpdate k) = false
                      ∧ props (performUpdate k) = props k
                      ∧ (isUpdatePending k = true →
                         changedProperties (performUpdate k) = ∅)).
  { intros k Hk. unfold performUpdate, updated.
    destruct (isUpdatePending k) eqn:Hp; [|done].
    rewrite bool_decide_eq_false_2; [done|]. rewrite Hk. by intros [? ?]. }
  cbv zeta. destruct (isUpdatePending h) eqn:Hp.
  - assert (Hfirst : changedProperties (performUpdate h) !! "sorted" = None).
    { unfold performUpdate, updated. rewrite Hp.
      case_bool_decide; [|done].
      unfold assign, requestUpdate. simpl.
      destruct (hasChanged _ _); simpl; [|done].
      by rewrite lookup_empty, lookup_insert_ne. }
    destruct (Hone _ Hfirst) as (Hq & Hprops & Hempty).
    split; [done|]. split; [by apply Hquiet|]. split; [done|].
    intros _. destruct (isUpdatePending (performUpdate h)) eqn:Hp1.
    + by apply Hempty.
    + rewrite (Hquiet _ Hp1). unfold performUpdate, updated in *.
      rewrite Hp in *. case_bool_decide; [|done].
      unfold assign, requestUpdate in *. simpl in *.
      by destruct (hasChanged _ _).
  - rewrite !(Hquiet h Hp). by repeat split.
Qed.

Lemma update_cycles_settle_witness :
  let h := assign (SetSorted true) (assign (SetSortable true) (constructed 0)) in
  isUpdatePending (performUpdate h) = true
  ∧ changedProperties (performUpdate (performUpdate h)) = ∅.
Proof.
  cbv zeta. split; [by vm_compute|].
  destruct (update_cycles_settle
              (assign (SetSorted true)
                      (assign (SetSortable true) (constructed 0))))
    as (_ & _ & _ & H).
  apply H. by vm_compute.
Defined.

(** ** Further properties of the templates *)

Lemma rendered_sort_toggle (c : Column) (h : Host) :
  shows_sort_toggle c (mkPage h (Some (rendered_nodes c))).
Proof.
  destruct c as [t so s sd w f l fc].
  unfold shows_sort_toggle, sortButton. simpl. split; intros ->.
  - destruct t, f; eexists; (split; [reflexivity|]); by split.
  - by destruct t, f.
Qed.

(** A cycle that schedules no further one has changed no property. *)
Lemma performUpdate_quiet_props (h : Host) :
  isUpdatePending h = true →
  isUpdatePending (performUpdate h) = false →
  props (performUpdate h) = props h.
Proof.
  intros Hp. unfold performUpdate, updated. rewrite Hp.
  case_bool_decide; [|done].
  unfold assign, requestUpdate, hasChanged. simpl.
  case_bool_decide as Hc; simpl; [discriminate|]. intros _.
  destruct (props h) as [t so s sd w f l fc]. simpl in *.
  by injection Hc as ->.
Qed.

(** The batch of a follow-up cycle never holds [sorted]. *)
Lemma performUpdate_drops_sorted (h : Host) :
  isUpdatePending h = true →
  changedProperties (performUpdate h) !! "sorted" = None.
Proof.
  intros Hp. unfold performUpdate, updated. rewrite Hp.
  case_bool_decide; [|done].
  unfold assign, requestUpdate. simpl.
  destruct (hasChanged _ _); simpl; [|done].
  by rewrite lookup_empty, lookup_insert_ne.
Qed.

(** X8: the [sortButton] accessor reads the render root, that is, what the
    last update cycle rendered.  Before the first render it is undefined.
    After one cycle it is the toggle as rendered from the properties the
    cycle started with (present exactly when the column was sortable then,
    [selected] being [sortedDescending] and [hidden] the negation of
    [withSortButton] of that moment), whatever [updated] wrote afterwards.
    After the follow-up cycle, two cycles in all, the render root is the
    rendering of the current properties and [sortButton] agrees with
    them. *)
Theorem sort_toggle_attributes (p : Page) :
  isUpdatePending (element p) = true →
  sortButton (mkPage (element p) None) = None
  ∧ shows_sort_toggle (props (element p)) (cycle p)
  ∧ renderRoot (cycle (cycle p))
    = Some (rendered_nodes (props (element (cycle (cycle p)))))
  ∧ shows_sort_toggle (props (element (cycle (cycle p)))) (cycle (cycle p)).
Proof.
  intros Hp. destruct p as [h root]. simpl in Hp.
  split; [done|].
  assert (H1 : cycle (mkPage h root)
               = mkPage (performUpdate h) (Some (rendered_nodes (props h)))).
  { unfold cycle. simpl. by rewrite Hp. }
  rewrite H1. split; [apply rendered_sort_toggle|].
  unfold cycle. simpl.
  destruct (isUpdatePending (performUpdate h)) eqn:Hp1; simpl.
  - rewrite (performUpdate_other (performUpdate h))
      by (by apply performUpdate_drops_sorted).
    split; [done|]. apply rendered_sort_toggle.
  - rewrite (performUpdate_quiet_props h) by done.
    split; [done|]. apply rendered_sort_toggle.
Qed.

Lemma sort_toggle_attributes_witness :
  let p := mkPage (assign (SetSorted true)
                     (assign (SetSortable true) (constructed 0))) None in
  (∃ toggle, sortButton (cycle p) = Some toggle
             ∧ boolean_attribute "hidden" toggle = Some true)
  ∧ withSortButton (props (element (cycle p))) = true
  ∧ (∃ toggle, sortButton (cycle (cycle p)) = Some toggle
               ∧ boolean_attribute "hidden" toggle = Some false).
Proof.
  cbv zeta.
  destruct (sort_toggle_attributes
              (mkPage (assign (SetSorted true)
                         (assign (SetSortable true) (constructed 0))) None))
    as (_ & [H1 _] & _ & [H2 _]); [by vm_compute|].
  destruct H1 as (t1 & Hq1 & _ & Hh1); [by vm_compute|].
  destruct H2 as (t2 & Hq2 & _ & Hh2); [by vm_compute|].
  split; [exists t1; split; [exact Hq1|]; rewrite Hh1; by vm_compute|].
  split; [by vm_compute|].
  exists t2. split; [exact Hq2|]. rewrite Hh2. by vm_compute.
Defined.

(** X9: when the filter text field is rendered ([filterable] on a column
    that is not a checkbox column) its [label] attribute is
    [filterTextFieldLabel], and it is the only place of the tree the label
    text goes to: with [filterable] false the rendered tree does not depend
    on the label. *)
Theorem filter_label_attribute (c : Column) (s : string) :
  (filterable c = true → type c ≠ TypeCheckbox →
   ∃ field, query "md-outlined-text-field" c = Some field
            ∧ attribute "label" field = Some (filterTextFieldLabel c))
  ∧ (filterable c = false →
     render (store (SetFilterTextFieldLabel s) c) = render c).
Proof.
  destruct c as [t so sd sdd w f l fc]. simpl. split.
  - intros -> Ht. destruct t; [| |done]; destruct so; eexists;
      (split; [reflexivity|]); reflexivity.
  - intros ->. by destruct t, so.
Qed.

Lemma filter_label_attribute_witness :
  (∃ field,
      query "md-outlined-text-field"
            (store (SetFilterable true) defaults) = Some field
      ∧ attribute "label" field = Some "Filter")
  ∧ render (store (SetFilterTextFieldLabel "Search") defaults)
    = render defaults.
Proof.
  destruct (filter_label_attribute (store (SetFilterable true) defaults) "")
    as [H1 _].
  destruct (filter_label_attribute defaults "Search") as [_ H2].
  split; [apply H1; [reflexivity|discriminate] | apply H2; reflexivity].
Defined.

(** X10: the rendered tree does not read [sorted] or
    [filterCaseSensitive]: writing either leaves all three rendered parts
    as they were.  A change of [sorted] reaches the tree only through the
    [withSortButton] that [updated] derives from it. *)
Theorem render_ignores_sorted_and_case_sensitivity (c : Column) (b : bool) :
  render (store (SetSorted b) c) = render c
  ∧ render (store (SetFilterCaseSensitive b) c) = render c.
Proof. by destruct c. Qed.


(** X12: the templates bind each handler only where its control is
    rendered, and once: the checkbox part binds [slotchange] on the slot
    and [change] on the default checkbox, the filter part binds [input] and
    [keydown] on the text field, the sortable third part binds
    [icon-button-toggle-change] and the click stopper on the toggle; there
    are no other bindings. *)
Theorem template_bindings (c : Column) :
  rendered_bindings c
  = (if bool_decide (type c = TypeCheckbox) then
       [("slot", "slotchange", HOnCheckboxSlotChanged);
        ("md-checkbox", "change", HOnCheckboxClicked)]
     else [])
    ++ (if filterable c && bool_decide (type c ≠ TypeCheckbox) then
          [("md-outlined-text-field", "input", HOnFilterTextFieldInput);
           ("md-outlined-text-field", "keydown", HOnFilterTextFieldKeyDown)]
        else [])
    ++ (if sortable c then
          [("md-standard-icon-button-toggle", "icon-button-toggle-change",
            HOnSortButtonClicked);
           ("md-standard-icon-button-toggle", "click", HStopPropagation)]
        else []).
Proof.
  destruct c as [t so s sd w f l fc].
  by destruct t, so, f.
Qed.

(** ** Further properties of the checkbox wiring *)

(** The store after [onCheckboxSlotChanged], in closed form. *)
Lemma onCheckboxSlotChanged_insert (els : list Ref)
    (dom : gmap Ref (list Callback)) (r : Ref) :
  checkbox els = Some r →
  onCheckboxSlotChanged els dom
  = <[r := foreign_listeners (change_listeners dom r)
           ++ [OnCheckboxClickedMethod]]> dom.
Proof.
  intros Hr. unfold onCheckboxSlotChanged. rewrite Hr.
  assert (Hnot : ∀ ls, OnCheckboxClickedMethod ∉ foreign_listeners ls).
  { intros ls. rewrite list_elem_of_In. unfold foreign_listeners.
    rewrite filter_In. intros [_ Hcb].
    apply bool_decide_eq_true_1 in Hcb. by apply Hcb. }
  unfold addEventListener.
  rewrite removeEventListener_listeners, decide_True by done.
  fold (foreign_listeners (change_listeners dom r)).
  rewrite bool_decide_eq_false_2 by apply Hnot.
  unfold removeEventListener.
  destruct (dom !! r) as [ls|]; [|done].
  by rewrite insert_insert_eq.
Qed.

Lemma foreign_listeners_app_method (ls : list Callback) :
  foreign_listeners (foreign_listeners ls ++ [OnCheckboxClickedMethod])
  = foreign_listeners ls.
Proof.
  unfold foreign_listeners. rewrite List.filter_app. simpl.
  rewrite app_nil_r. induction ls as [|x ls IH]; [done|].
  simpl. destruct (bool_decide (x ≠ OnCheckboxClickedMethod)) eqn:E.
  - simpl. by rewrite E, IH.
  - done.
Qed.

(** X13: [onCheckboxSlotChanged] is idempotent: a second slot-change event
    with the same slot content leaves the listener store exactly as the
    first one left it, so repeated events do not pile up listeners. *)
Theorem slot_change_is_idempotent (els : list Ref)
    (dom : gmap Ref (list Callback)) :
  onCheckboxSlotChanged els (onCheckboxSlotChanged els dom)
  = onCheckboxSlotChanged els dom.
Proof.
  destruct (checkbox els) as [r|] eqn:Hr.
  - rewrite !(onCheckboxSlotChanged_insert els _ r Hr).
    rewrite change_listeners_insert, decide_True by done.
    rewrite foreign_listeners_app_method. by rewrite insert_insert_eq.
  - unfold onCheckboxSlotChanged. by rewrite Hr.
Qed.

(** X14: [onCheckboxSlotChanged] never touches the listeners of other
    parties: on every element, the effective checkbox included, the
    listeners other than the column's method are the same, in the same
    order, before and after. *)
Theorem slot_change_keeps_foreign_listeners (els : list Ref)
    (dom : gmap Ref (list Callback)) (r : Ref) :
  foreign_listeners (change_listeners (onCheckboxSlotChanged els dom) r)
  = foreign_listeners (change_listeners dom r).
Proof.
  destruct (checkbox els) as [r0|] eqn:Hr.
  - rewrite (onCheckboxSlotChanged_insert els _ r0 Hr).
    rewrite change_listeners_insert.
    destruct (decide (r0 = r)) as [->|]; [|done].
    apply foreign_listeners_app_method.
  - unfold onCheckboxSlotChanged. by rewrite Hr.
Qed.

Lemma slot_assignments_foreign (fallback : Ref) (contents : list (list Ref))
    (dom : gmap Ref (list Callback)) (r : Ref) :
  foreign_listeners (change_listeners (slot_assignments fallback contents dom) r)
  = foreign_listeners (change_listeners dom r).
Proof.
  revert dom. induction contents as [|assigned contents IH]; intros dom; [done|].
  change (slot_assignments fallback (assigned :: contents) dom)
    with (slot_assignments fallback contents
            (onCheckboxSlotChanged
               (checkboxSlotElements (Some fallback) assigned) dom)).
  rewrite IH, onCheckboxSlotChanged_change_listeners.
  case_decide; [|done]. apply foreign_listeners_app_method.
Qed.

Lemma slot_assignments_keep_wired (fallback : Ref)
    (contents : list (list Ref)) (dom : gmap Ref (list Callback)) (r : Ref)
    (ls : list Callback) :
  change_listeners dom r = foreign_listeners ls ++ [OnCheckboxClickedMethod] →
  change_listeners (slot_assignments fallback contents dom) r
  = foreign_listeners ls ++ [OnCheckboxClickedMethod].
Proof.
  revert dom. induction contents as [|assigned contents IH]; intros dom Hl;
    [done|].
  change (slot_assignments fallback (assigned :: contents) dom)
    with (slot_assignments fallback contents
            (onCheckboxSlotChanged
               (checkboxSlotElements (Some fallback) assigned) dom)).
  apply IH. rewrite onCheckboxSlotChanged_change_listeners.
  case_decide; [|done]. rewrite Hl.
  fold (foreign_listeners
          (foreign_listeners ls ++ [OnCheckboxClickedMethod])).
  by rewrite foreign_listeners_app_method.
Qed.

(** X15: a checkbox that was the effective one at some slot change (an
    assigned element, or the default checkbox when the slot was empty)
    stays wired for good: after any further slot changes it still carries
    the column's method exactly once, behind the other listeners it had.
    A change of such a checkbox that does not carry the template binding
    dispatches one [checked] event, on the checkbox itself; a change of the
    default checkbox, which carries the template binding, dispatches two:
    first on the column, then on the checkbox. *)
Theorem wired_checkbox_stays_wired (fallback : Ref)
    (before after : list (list Ref)) (assigned : list Ref)
    (dom : gmap Ref (list Callback)) (target : Checkbox) (h : Host) :
  checkbox (checkboxSlotElements (Some fallback) assigned)
  = Some (checkbox_ref target) →
  let dom' := slot_assignments fallback (before ++ assigned :: after) dom in
  let notification (on : Ref) :=
    mkObservation on
      (mkCustomEvent "checked"
         (CellChecked (nullish_coalesce (checked target) false)))
      (props h) in
  change_listeners dom' (checkbox_ref target)
  = foreign_listeners (change_listeners dom (checkbox_ref target))
    ++ [OnCheckboxClickedMethod]
  ∧ count_occ Callback_eq_dec (change_listeners dom' (checkbox_ref target))
              OnCheckboxClickedMethod = 1
  ∧ (TemplateChangeBinding ∉ change_listeners dom (checkbox_ref target) →
     dispatched (fireChange target dom' h)
     = dispatched h ++ [notification (checkbox_ref target)])
  ∧ (change_listeners dom (checkbox_ref target) = [TemplateChangeBinding] →
     dispatched (fireChange target dom' h)
     = dispatched h
       ++ [notification (self h); notification (checkbox_ref target)]).
Proof.
  intros Hr dom' notification.
  assert (Hl : change_listeners dom' (checkbox_ref target)
               = foreign_listeners (change_listeners dom (checkbox_ref target))
                 ++ [OnCheckboxClickedMethod]).
  { assert (Hsplit : dom'
                     = slot_assignments fallback after
                         (onCheckboxSlotChanged
                            (checkboxSlotElements (Some fallback) assigned)
                            (slot_assignments fallback before dom))).
    { unfold dom', slot_assignments. by rewrite fold_left_app. }
    rewrite Hsplit. apply slot_assignments_keep_wired.
    rewrite onCheckboxSlotChanged_change_listeners, decide_True by done.
    fold (foreign_listeners
            (change_listeners
               (slot_assignments fallback before dom) (checkbox_ref target))).
    by rewrite slot_assignments_foreign. }
  assert (Hc : count_occ Callback_eq_dec
                 (change_listeners dom' (checkbox_ref target))
                 OnCheckboxClickedMethod = 1).
  { rewrite Hl, count_occ_app. unfold foreign_listeners.
    by rewrite count_occ_filter_out. }
  split; [done|]. split; [done|]. split.
  - intros Hno. unfold fireChange. rewrite fold_invoke.
    + cbn [dispatched]. by rewrite Hc.
    + rewrite Hl, not_elem_of_app. split.
      * unfold foreign_listeners. rewrite list_elem_of_In, filter_In.
        intros [Hin _]. apply Hno. by rewrite list_elem_of_In.
      * by intros ?%list_elem_of_singleton.
  - intros Ht. unfold fireChange. rewrite Hl, Ht. simpl.
    unfold onCheckboxClicked, dispatchEvent. simpl.
    by rewrite <- app_assoc.
Qed.

Lemma wired_checkbox_stays_wired_witness :
  let dom' := slot_assignments 9 [[1]; []; [2]] (rendered_listeners 9) in
  dispatched (fireChange (mkCheckbox 1 (Defined true)) dom' (constructed 0))
  = dispatched (constructed 0)
    ++ [mkObservation 1 (mkCustomEvent "checked" (CellChecked true))
          (props (constructed 0))]
  ∧ dispatched (fireChange (mkCheckbox 9 (Defined true)) dom' (constructed 0))
    = dispatched (constructed 0)
      ++ [mkObservation 0 (mkCustomEvent "checked" (CellChecked true))
            (props (constructed 0));
          mkObservation 9 (mkCustomEvent "checked" (CellChecked true))
            (props (constructed 0))].
Proof.
  cbv zeta. split.
  - destruct (wired_checkbox_stays_wired 9 [] [[]; [2]] [1]
                (rendered_listeners 9) (mkCheckbox 1 (Defined true))
                (constructed 0)) as (_ & _ & H & _); [reflexivity|].
    apply H. vm_compute. by intros ?%elem_of_nil.
  - destruct (wired_checkbox_stays_wired 9 [[1]] [[2]] []
                (rendered_listeners 9) (mkCheckbox 9 (Defined true))
                (constructed 0)) as (_ & _ & _ & H); [reflexivity|].
    apply H. by vm_compute.
Defined.
